(** * dispatch.incident_type.views: the incident-type REST controller

    A shallow embedding of [src/dispatch/incident_type/views.py] and the
    properties its specification states about it.

    The module is a thin adapter: four route handlers that delegate to the
    entity service ([.service]: get, create, update), to the generic
    pagination helper ([dispatch.database.search_filter_sort_paginate]) and to
    the authentication layer ([get_current_user]).  None of these lives in the
    module itself, so the handlers are embedded once and for all over an
    interface of collaborators ([Collaborators]); what is proved about the
    control flow of a handler then holds whatever the collaborators do. *)

From stdpp Require Import base option list strings gmap fin_maps.
From Stdlib Require Import ZArith Lia.

Local Open Scope string_scope.
Local Open Scope Z_scope.

(** ** Outcomes of a view function *)

(** [fastapi.HTTPException(status_code=..., detail=...)]. *)
Record HTTPException := mkHTTPException {
  status_code : Z;
  detail : string
}.

(** A view function either returns a value, which the framework sends with
    status 200 (the routes declare no other status), or raises. *)
Inductive Outcome (A : Type) : Type :=
  | Returned (value : A)
  | Raised (exc : HTTPException).
Arguments Returned {A} value.
Arguments Raised {A} exc.

Definition http_status {A} (o : Outcome A) : Z :=
  match o with
  | Returned _ => 200
  | Raised exc => status_code exc
  end.

Definition fmap_outcome {A B} (f : A → B) (o : Outcome A) : Outcome B :=
  match o with
  | Returned a => Returned (f a)
  | Raised exc => Raised exc
  end.

(** ** The view monad: a database session threaded through, and exceptions *)

(** The session is the only mutable object a handler touches.  A computation
    takes the session as it is and gives back the session as it leaves it,
    with the outcome.  A [raise] leaves the session as it was at that point. *)
Definition View (S A : Type) : Type := S → S * Outcome A.

Definition view_ret {S A} (a : A) : View S A := λ s, (s, Returned a).

Definition view_bind {S A B} (m : View S A) (k : A → View S B) : View S B :=
  λ s, match m s with
       | (s', Returned a) => k a s'
       | (s', Raised exc) => (s', Raised exc)
       end.

Definition raise {S A} (exc : HTTPException) : View S A := λ s, (s, Raised exc).

(** A collaborator that only reads the session. *)
Definition reading {S A} (f : S → A) : View S A := λ s, (s, Returned (f s)).

(** A collaborator that may write to the session. *)
Definition calling {S A} (f : S → S * A) : View S A :=
  λ s, let '(s', a) := f s in (s', Returned a).

Declare Scope view_scope.
Delimit Scope view_scope with view.
Notation "x <- m ;; k" := (view_bind m (λ x, k))
  (at level 100, m at next level, right associativity) : view_scope.

(** ** The collaborators of the controller *)

(** Everything [views.py] imports from the rest of the application.  The
    types are those the handlers' signatures name; the operations are called
    with keyword arguments in the source, kept here in the order the source
    writes them.

    - [get] is [service.get(db_session, incident_type_id)]: the entity or
      [None].  It is a query and leaves the session alone.
    - [create] and [update] are [service.create] and [service.update]: they
      write through the session and return the entity.
    - [role] is the attribute [current_user.role] and [admin] the constant
      [UserRoles.admin]; the source compares them with [!=]. *)
Class Collaborators := {
  Session : Type;
  IncidentType : Type;
  IncidentTypeCreate : Type;
  IncidentTypeUpdate : Type;
  IncidentTypePagination : Type;
  DispatchUser : Type;
  UserRoles : Type;
  #[global] UserRoles_eq_dec :: EqDecision UserRoles;
  admin : UserRoles;
  role : DispatchUser → UserRoles;
  get : Session → Z → option IncidentType;
  create : Session → IncidentTypeCreate → Session * IncidentType;
  update : Session → IncidentType → IncidentTypeUpdate → Session * IncidentType;
  search_filter_sort_paginate :
    Session → string → option string → Z → Z →
    list string → list bool → list string → list string → list string →
    IncidentTypePagination
}.

(** ** The four handlers *)

Section Views.
Context `{C : Collaborators}.
Local Open Scope view_scope.

(** [GET /].  The query parameters are optional; an absent one takes the
    default of the signature ([page = 1], [itemsPerPage = 5], [q = None], the
    list-valued ones the empty list, which is how an absent repeated
    parameter arrives).  The helper is called with
    [fields=fields, values=values, ops=ops], in that order. *)
Definition get_incident_types
    (page : option Z) (items_per_page : option Z) (query_str : option string)
    (sort_by : list string) (descending : list bool)
    (fields : list string) (ops : list string) (values : list string)
  : View Session IncidentTypePagination :=
  let page := default 1 page in
  let items_per_page := default 5 items_per_page in
  reading (λ db_session,
    search_filter_sort_paginate db_session "IncidentType" query_str
      page items_per_page sort_by descending fields values ops).

(** [POST /]. *)
Definition create_incident_type
    (incident_type_in : IncidentTypeCreate) (current_user : DispatchUser)
  : View Session IncidentType :=
  if decide (role current_user ≠ admin) then
    raise (mkHTTPException 403
             "You do not have permission to create incident types.")
  else
    incident_type <- calling (λ db_session, create db_session incident_type_in);;
    view_ret incident_type.

(** [PUT /{incident_type_id}].  [if not incident_type] is the test for
    [None]: a mapped entity has no [__bool__] or [__len__] and is true. *)
Definition update_incident_type
    (incident_type_id : Z) (incident_type_in : IncidentTypeUpdate)
    (current_user : DispatchUser)
  : View Session IncidentType :=
  found <- reading (λ db_session, get db_session incident_type_id);;
  match found with
  | None =>
      raise (mkHTTPException 404
               "The incident type with this id does not exist.")
  | Some incident_type =>
      if decide (role current_user ≠ admin) then
        raise (mkHTTPException 403
                 "You do not have permission to update incident types.")
      else
        incident_type <-
          calling (λ db_session,
                     update db_session incident_type incident_type_in);;
        view_ret incident_type
  end.

(** [GET /{incident_type_id}]: no [current_user] in the signature. *)
Definition get_incident_type (incident_type_id : Z)
  : View Session IncidentType :=
  found <- reading (λ db_session, get db_session incident_type_id);;
  match found with
  | None =>
      raise (mkHTTPException 404
               "The incident type with this id does not exist.")
  | Some incident_type => view_ret incident_type
  end.

End Views.

(** ** The router *)

(** [router = APIRouter()] with its four routes.  A request names the route
    and carries what the route reads from the path, the query string or the
    body.  The principal of the request is resolved by
    [Depends(get_current_user)], and only for the two routes whose handler
    declares [current_user]. *)
Inductive Request `{C : Collaborators} : Type :=
  | GET_root (page items_per_page : option Z) (q : option string)
             (sort_by : list string) (descending : list bool)
             (fields ops values : list string)
  | POST_root (incident_type_in : IncidentTypeCreate)
  | PUT_item (incident_type_id : Z) (incident_type_in : IncidentTypeUpdate)
  | GET_item (incident_type_id : Z).

Inductive Body `{C : Collaborators} : Type :=
  | PageBody (envelope : IncidentTypePagination)
  | EntityBody (entity : IncidentType).

Section Router.
Context `{C : Collaborators}.

Definition as_body {A} (wrap : A → Body) (m : View Session A)
  : View Session Body :=
  λ db_session, let '(db_session', o) := m db_session in
                (db_session', fmap_outcome wrap o).

Definition router (current_user : DispatchUser) (req : Request)
  : View Session Body :=
  match req with
  | GET_root page items_per_page q sort_by descending fields ops values =>
      as_body PageBody
        (get_incident_types page items_per_page q sort_by descending
           fields ops values)
  | POST_root incident_type_in =>
      as_body EntityBody (create_incident_type incident_type_in current_user)
  | PUT_item incident_type_id incident_type_in =>
      as_body EntityBody
        (update_incident_type incident_type_id incident_type_in current_user)
  | GET_item incident_type_id =>
      as_body EntityBody (get_incident_type incident_type_id)
  end.

Definition is_read (req : Request) : bool :=
  match req with
  | GET_root _ _ _ _ _ _ _ _ | GET_item _ => true
  | POST_root _ | PUT_item _ _ => false
  end.

(** The entries of a history that can write: a request to one of the two
    writing routes, from a principal whose role is admin. *)
Definition is_admin_write (entry : DispatchUser * Request) : bool :=
  bool_decide (role entry.1 = admin) && negb (is_read entry.2).

(** A history of requests, each with its principal, served one after the
    other on the same store. *)
Fixpoint serve (db_session : Session) (history : list (DispatchUser * Request))
  : Session * list (Outcome Body) :=
  match history with
  | [] => (db_session, [])
  | (current_user, req) :: rest =>
      let '(db_session', o) := router current_user req db_session in
      let '(db_session'', os) := serve db_session' rest in
      (db_session'', o :: os)
  end.

(** The stores that requests can lead to from [db0]. *)
Inductive reachable (db0 : Session) : Session → Prop :=
  | reachable_start : reachable db0 db0
  | reachable_step db current_user req :
      reachable db0 db →
      reachable db0 (router current_user req db).1.

(** The stores that requests of admin principals alone can lead to. *)
Inductive reachable_by_admins (db0 : Session) : Session → Prop :=
  | reachable_by_admins_start : reachable_by_admins db0 db0
  | reachable_by_admins_step db current_user req :
      reachable_by_admins db0 db →
      role current_user = admin →
      reachable_by_admins db0 (router current_user req db).1.

End Router.

(** ** The collaborators as the specification describes them *)

(** The service layer, the pagination helper and the schema types are not
    part of [views.py].  What a claim says about their effect (that an entity
    is persisted, that the returned entity reflects the payload, that a page
    has at most so many items) is settled against the following model. *)
Module SpecModel.

(** Modelled from the spec: the IncidentType entity of [.models], which is
    missing.  "A named classification entity (attributes not further
    specified in this slice beyond an integer identifier)": an integer
    identifier and named attributes, [name] among them. *)
Record Entity := mkEntity {
  id : Z;
  attributes : gmap string string
}.

(** Modelled from the spec: the payload schemas IncidentTypeCreate and
    IncidentTypeUpdate of [.models], which are missing: the fields the
    request gives, by name. *)
Abbreviation Payload := (gmap string string).

(** Modelled from the spec: the relational store behind the session, which is
    missing: the persisted entities by identifier. *)
Abbreviation Store := (gmap Z (gmap string string)).

(** Modelled from the spec: IncidentTypePagination of [.models], which is
    missing.  "Response wrapper containing a page of results plus paging
    metadata (total count, page, items-per-page)". *)
Record Pagination := mkPagination {
  items : list Entity;
  itemsPerPage : Z;
  page : Z;
  total : Z
}.

(** Modelled from the spec: the "newly assigned id" of a created entity, by a
    store that is missing: one more than every identifier in use, and at
    least 1. *)
Definition next_id (db : Store) : Z :=
  1 + foldr Z.max 0 (map_to_list db).*1.

(** Modelled from the spec: [service.get], which is missing.
    "[get(id) -> Entity|None]". *)
Definition service_get (db : Store) (incident_type_id : Z) : option Entity :=
  mkEntity incident_type_id <$> db !! incident_type_id.

(** Modelled from the spec: [service.create], which is missing.
    "[create(input) -> Entity]", "persists a new IncidentType", "the same
    name with a newly assigned id". *)
Definition service_create (db : Store) (incident_type_in : Payload)
  : Store * Entity :=
  let new_id := next_id db in
  (<[new_id := incident_type_in]> db, mkEntity new_id incident_type_in).

(** Modelled from the spec: [service.update], which is missing.
    "[update(entity, input) -> Entity]", "applies the update payload to the
    existing entity", "the returned entity reflects the fields in input": the
    fields of the payload replace those of the entity, the others stay. *)
Definition service_update (db : Store) (incident_type : Entity)
    (incident_type_in : Payload) : Store * Entity :=
  let updated := incident_type_in ∪ attributes incident_type in
  (<[id incident_type := updated]> db, mkEntity (id incident_type) updated).

Definition rows (db : Store) : list Entity :=
  (λ row, mkEntity row.1 row.2) <$> map_to_list db.

Section Model.
Context {User Roles : Type} `{EqDecision Roles}.
Variables (admin_role : Roles) (role_of : User → Roles).

(** The spec leaves the query language open ("a small query-building
    interpreter over field/operator/value triples"): which entities a query
    string and the filter triples select, and how sort fields order them, are
    parameters of the model. *)
Variable selects :
  option string → list (string * string * string) → Entity → bool.
Variable sorted_by : list (string * bool) → list Entity → list Entity.

(** Modelled from the spec: [dispatch.database.search_filter_sort_paginate],
    which is missing.  "Paginated envelope of IncidentType records matching
    filters, sorted and sliced per parameters": [descending[]] is paired
    with [sortBy[]] by position, [field[]], [op[]] and [value[]] form the
    filter triples, and the page is the [items_per_page] records from
    position [(page - 1) * items_per_page] on. *)
Definition database_search_filter_sort_paginate
    (db : Store) (model : string) (query_str : option string)
    (page items_per_page : Z) (sort_by : list string) (descending : list bool)
    (fields values ops : list string) : Pagination :=
  let triples := zip (zip fields ops) values in
  let matching := List.filter (selects query_str triples) (rows db) in
  let sorted := sorted_by (zip sort_by descending) matching in
  {| items := take (Z.to_nat items_per_page)
                (drop (Z.to_nat ((page - 1) * items_per_page)) sorted);
     itemsPerPage := items_per_page;
     page := page;
     total := Z.of_nat (length sorted) |}.

Definition collaborators : Collaborators := {|
  Session := Store;
  IncidentType := Entity;
  IncidentTypeCreate := Payload;
  IncidentTypeUpdate := Payload;
  IncidentTypePagination := Pagination;
  DispatchUser := User;
  UserRoles := Roles;
  admin := admin_role;
  role := role_of;
  get := service_get;
  create := service_create;
  update := service_update;
  search_filter_sort_paginate := database_search_filter_sort_paginate
|}.

End Model.

(** A principal as the spec describes it: "carries a [role] attribute
    compared against an admin role constant". *)
Record Principal := mkPrincipal {
  email : string;
  principal_role : string
}.

(** The model with principals whose role is a string and the admin role
    ["admin"], every entity selected and the store's own order. *)
Definition example : Collaborators :=
  collaborators "admin" principal_role (λ _ _ _, true) (λ _ l, l).

Definition alice : Principal := mkPrincipal "alice@example.com" "admin".
Definition bob : Principal := mkPrincipal "bob@example.com" "member".
Definition carol : Principal := mkPrincipal "carol@example.com" "poweruser".

Definition fire : Payload := {[ "name" := "Fire" ]}.
Definition flood : Payload := {[ "name" := "Flood"; "description" := "Water" ]}.

(** A store with one entity, of identifier 1. *)
Definition one_entity : Store := {[ 1 := fire ]}.

End SpecModel.

(** * Properties of the handlers, whatever the collaborators *)

(** Unfolds the plumbing of the view monad in the goal. *)
Ltac run_view :=
  unfold view_bind, view_ret, raise, reading, calling, as_body; simpl.

Section HandlerFacts.
Context `{C : Collaborators}.

(** An identifier is in the store when [get] finds an entity for it. *)
Definition exists_in (db_session : Session) (incident_type_id : Z) : Prop :=
  is_Some (get db_session incident_type_id).

Definition not_found : HTTPException :=
  mkHTTPException 404 "The incident type with this id does not exist.".
Definition create_forbidden : HTTPException :=
  mkHTTPException 403 "You do not have permission to create incident types.".
Definition update_forbidden : HTTPException :=
  mkHTTPException 403 "You do not have permission to update incident types.".

(** ** One equation per path through a handler *)

Lemma create_incident_type_denied incident_type_in current_user db :
  role current_user ≠ admin →
  create_incident_type incident_type_in current_user db
  = (db, Raised create_forbidden).
Proof.
  intros Hrole. unfold create_incident_type.
  destruct (decide (role current_user ≠ admin)); [reflexivity | contradiction].
Qed.

Lemma create_incident_type_allowed incident_type_in current_user db :
  role current_user = admin →
  create_incident_type incident_type_in current_user db
  = ((create db incident_type_in).1, Returned (create db incident_type_in).2).
Proof.
  intros Hrole. unfold create_incident_type.
  destruct (decide (role current_user ≠ admin)) as [Hne | _]; [congruence |].
  run_view. destruct (create db incident_type_in); reflexivity.
Qed.

Lemma update_incident_type_absent incident_type_id incident_type_in current_user db :
  get db incident_type_id = None →
  update_incident_type incident_type_id incident_type_in current_user db
  = (db, Raised not_found).
Proof.
  intros Hget. unfold update_incident_type. run_view.
  rewrite Hget. reflexivity.
Qed.

Lemma update_incident_type_denied
    incident_type_id incident_type_in current_user db incident_type :
  get db incident_type_id = Some incident_type →
  role current_user ≠ admin →
  update_incident_type incident_type_id incident_type_in current_user db
  = (db, Raised update_forbidden).
Proof.
  intros Hget Hrole. unfold update_incident_type. run_view.
  rewrite Hget.
  destruct (decide (role current_user ≠ admin)); [reflexivity | contradiction].
Qed.

Lemma update_incident_type_allowed
    incident_type_id incident_type_in current_user db incident_type :
  get db incident_type_id = Some incident_type →
  role current_user = admin →
  update_incident_type incident_type_id incident_type_in current_user db
  = ((update db incident_type incident_type_in).1,
     Returned (update db incident_type incident_type_in).2).
Proof.
  intros Hget Hrole. unfold update_incident_type. run_view.
  rewrite Hget.
  destruct (decide (role current_user ≠ admin)) as [Hne | _]; [congruence |].
  destruct (update db incident_type incident_type_in); reflexivity.
Qed.

Lemma get_incident_type_absent incident_type_id db :
  get db incident_type_id = None →
  get_incident_type incident_type_id db = (db, Raised not_found).
Proof.
  intros Hget. unfold get_incident_type. run_view. rewrite Hget. reflexivity.
Qed.

Lemma get_incident_type_present incident_type_id db incident_type :
  get db incident_type_id = Some incident_type →
  get_incident_type incident_type_id db = (db, Returned incident_type).
Proof.
  intros Hget. unfold get_incident_type. run_view. rewrite Hget. reflexivity.
Qed.

Lemma get_incident_types_eq
    page items_per_page q sort_by descending fields ops values db :
  get_incident_types page items_per_page q sort_by descending fields ops values db
  = (db, Returned (search_filter_sort_paginate db "IncidentType" q
                     (default 1 page) (default 5 items_per_page)
                     sort_by descending fields values ops)).
Proof. reflexivity. Qed.

(** ** What a request does to the store *)

Lemma router_read_keeps_store current_user req db :
  is_read req = true → (router current_user req db).1 = db.
Proof.
  destruct req as [? ? ? ? ? ? ? ?| | |i]; simpl; try discriminate; intros _.
  - reflexivity.
  - unfold as_body. destruct (get db i) as [e|] eqn:Hget.
    + rewrite (get_incident_type_present _ _ _ Hget). reflexivity.
    + rewrite (get_incident_type_absent _ _ Hget). reflexivity.
Qed.

Lemma router_non_admin_keeps_store current_user req db :
  role current_user ≠ admin → (router current_user req db).1 = db.
Proof.
  intros Hrole.
  destruct (is_read req) eqn:Hread.
  { apply router_read_keeps_store, Hread. }
  destruct req as [? ? ? ? ? ? ? ?|inp|i inp|i]; simpl in *; try discriminate.
  - unfold as_body. rewrite create_incident_type_denied by assumption.
    reflexivity.
  - unfold as_body. destruct (get db i) as [e|] eqn:Hget.
    + rewrite (update_incident_type_denied _ _ _ _ _ Hget Hrole). reflexivity.
    + rewrite (update_incident_type_absent _ _ _ _ Hget). reflexivity.
Qed.

Lemma router_change_by_admin current_user req db :
  (router current_user req db).1 ≠ db → role current_user = admin.
Proof.
  intros Hchange. destruct (decide (role current_user = admin)) as [|Hne];
    [assumption |].
  exfalso. apply Hchange, router_non_admin_keeps_store, Hne.
Qed.

Lemma serve_cons current_user req rest db :
  serve db ((current_user, req) :: rest)
  = ((serve (router current_user req db).1 rest).1,
     (router current_user req db).2
     :: (serve (router current_user req db).1 rest).2).
Proof.
  simpl. destruct (router current_user req db) as [db' o]. simpl.
  destruct (serve db' rest); reflexivity.
Qed.

Lemma serve_non_admins_keeps_store history db :
  Forall (λ entry, role entry.1 ≠ admin) history →
  (serve db history).1 = db.
Proof.
  intros Hall. revert db.
  induction Hall as [|[current_user req] rest Hrole _ IH]; intros db.
  - reflexivity.
  - simpl in *.
    pose proof (router_non_admin_keeps_store current_user req db Hrole) as Hkeep.
    destruct (router current_user req db) as [db' o]. simpl in Hkeep. subst db'.
    specialize (IH db). destruct (serve db rest) as [db'' os].
    exact IH.
Qed.

Lemma reachable_is_by_admins db0 db :
  reachable db0 db → reachable_by_admins db0 db.
Proof.
  induction 1 as [|db current_user req _ IH].
  - constructor.
  - destruct (decide (role current_user = admin)) as [Hadmin | Hne].
    + constructor; assumption.
    + rewrite router_non_admin_keeps_store by assumption. exact IH.
Qed.

End HandlerFacts.

(** * The claims of the specification *)

Section Claims.
Context `{C : Collaborators}.

(** C1.  In [update_incident_type] the lookup comes before the permission
    check: for an identifier with no entity in the store, the update raises
    NotFound (status 404), whoever the caller is, admin or not, and so never
    PermissionDenied (status 403).  The store is left as it was. *)
Theorem update_lookup_precedes_permission
    (incident_type_id : Z) (incident_type_in : IncidentTypeUpdate)
    (current_user : DispatchUser) (db : Session) :
  ¬ exists_in db incident_type_id →
  update_incident_type incident_type_id incident_type_in current_user db
  = (db, Raised not_found)
  ∧ http_status
      (update_incident_type incident_type_id incident_type_in current_user db).2
    = 404
  ∧ http_status
      (update_incident_type incident_type_id incident_type_in current_user db).2
    ≠ 403.
Proof.
  intros Habsent. apply eq_None_not_Some in Habsent.
  rewrite (update_incident_type_absent _ incident_type_in current_user _ Habsent).
  simpl. repeat split. lia.
Qed.

(** C2.  A caller whose role is not admin gets PermissionDenied (status 403)
    from [create_incident_type] for every payload, and from
    [update_incident_type] for every payload whenever the identifier is in the
    store. *)
Theorem non_admin_writes_are_403 (current_user : DispatchUser) :
  role current_user ≠ admin →
  (∀ (incident_type_in : IncidentTypeCreate) (db : Session),
     create_incident_type incident_type_in current_user db
     = (db, Raised create_forbidden)
     ∧ http_status (create_incident_type incident_type_in current_user db).2
       = 403)
  ∧ (∀ (incident_type_id : Z) (incident_type_in : IncidentTypeUpdate)
       (db : Session),
       exists_in db incident_type_id →
       update_incident_type incident_type_id incident_type_in current_user db
       = (db, Raised update_forbidden)
       ∧ http_status
           (update_incident_type incident_type_id incident_type_in
              current_user db).2
         = 403).
Proof.
  intros Hrole. split.
  - intros incident_type_in db.
    rewrite create_incident_type_denied by assumption. split; reflexivity.
  - intros incident_type_id incident_type_in db [incident_type Hget].
    rewrite (update_incident_type_denied _ _ _ _ _ Hget Hrole).
    split; reflexivity.
Qed.

(** C3.  For an identifier with no entity in the store, [get_incident_type]
    raises NotFound (status 404), and so does [update_incident_type] for every
    caller and every payload. *)
Theorem unknown_id_is_404 (incident_type_id : Z) (db : Session) :
  ¬ exists_in db incident_type_id →
  (get_incident_type incident_type_id db = (db, Raised not_found)
   ∧ http_status (get_incident_type incident_type_id db).2 = 404)
  ∧ (∀ (incident_type_in : IncidentTypeUpdate) (current_user : DispatchUser),
       update_incident_type incident_type_id incident_type_in current_user db
       = (db, Raised not_found)
       ∧ http_status
           (update_incident_type incident_type_id incident_type_in
              current_user db).2
         = 404).
Proof.
  intros Habsent. apply eq_None_not_Some in Habsent. split.
  - rewrite get_incident_type_absent by assumption. split; reflexivity.
  - intros incident_type_in current_user.
    rewrite update_incident_type_absent by assumption. split; reflexivity.
Qed.

(** C6.  For an identifier that is in the store, [get_incident_type] returns
    the stored entity with status 200.  The handler has no caller among its
    arguments; served through the router it answers every caller, whatever
    the role, with that entity. *)
Theorem get_returns_stored_entity
    (incident_type_id : Z) (db : Session) (incident_type : IncidentType) :
  get db incident_type_id = Some incident_type →
  (get_incident_type incident_type_id db = (db, Returned incident_type)
   ∧ http_status (get_incident_type incident_type_id db).2 = 200)
  ∧ (∀ current_user : DispatchUser,
       router current_user (GET_item incident_type_id) db
       = (db, Returned (EntityBody incident_type))
       ∧ http_status (router current_user (GET_item incident_type_id) db).2
         = 200).
Proof.
  intros Hget. split.
  - rewrite (get_incident_type_present _ _ _ Hget). split; reflexivity.
  - intros current_user. simpl. unfold as_body.
    rewrite (get_incident_type_present _ _ _ Hget). split; reflexivity.
Qed.

(** C9.  For an identifier that is in the store and a caller that is not
    admin, [update_incident_type] raises 403 before the service's update is
    called: the store after the request is the store before it, every lookup
    gives what it gave, and this holds whatever the service's update would
    have done, in particular when it would have changed the store. *)
Theorem denied_update_leaves_store
    (incident_type_id : Z) (incident_type_in : IncidentTypeUpdate)
    (current_user : DispatchUser) (db : Session) (incident_type : IncidentType) :
  get db incident_type_id = Some incident_type →
  role current_user ≠ admin →
  let after :=
    update_incident_type incident_type_id incident_type_in current_user db in
  http_status after.2 = 403
  ∧ after.1 = db
  ∧ get after.1 incident_type_id = Some incident_type
  ∧ (∀ other : Z, get after.1 other = get db other)
  ∧ ((update db incident_type incident_type_in).1 ≠ db →
     after.1 ≠ (update db incident_type incident_type_in).1).
Proof.
  intros Hget Hrole after. subst after.
  rewrite (update_incident_type_denied _ _ _ _ _ Hget Hrole). simpl.
  repeat split; try assumption. intros Hchange Heq. apply Hchange.
  symmetry. exact Heq.
Qed.

(** C10.  The two read handlers take no caller: two requests to
    [get_incident_types] or to [get_incident_type] on the same store with the
    same arguments, from any two principals, have the same result, and that
    result is the handler's, which has no principal to look at. *)
Theorem reads_do_not_depend_on_caller
    (caller1 caller2 : DispatchUser) (db : Session) :
  (∀ page items_per_page q sort_by descending fields ops values,
     router caller1
       (GET_root page items_per_page q sort_by descending fields ops values) db
     = router caller2
         (GET_root page items_per_page q sort_by descending fields ops values) db
     ∧ router caller1
         (GET_root page items_per_page q sort_by descending fields ops values) db
       = as_body PageBody
           (get_incident_types page items_per_page q sort_by descending
              fields ops values) db)
  ∧ (∀ incident_type_id,
       router caller1 (GET_item incident_type_id) db
       = router caller2 (GET_item incident_type_id) db
       ∧ router caller1 (GET_item incident_type_id) db
         = as_body EntityBody (get_incident_type incident_type_id) db).
Proof. split; intros; split; reflexivity. Qed.

(** C8.  Over every store that requests can lead to: a request that changes
    the store comes from a caller with the admin role, so every reachable
    store is reached by the requests of admins alone, and no sequence of
    requests by callers without the admin role changes the store.  Reads are
    open to every caller: a list request is answered with status 200, a get
    request with status 200 and the entity whenever the identifier is in the
    store (its only other answer is the 404 of an identifier that is not),
    and no read is ever refused with 403 or changes the store. *)
Theorem only_admins_change_the_store :
  (∀ db0 db : Session, reachable db0 db → reachable_by_admins db0 db)
  ∧ (∀ (db : Session) (current_user : DispatchUser) (req : Request),
       (router current_user req db).1 ≠ db → role current_user = admin)
  ∧ (∀ (db : Session) (history : list (DispatchUser * Request)),
       Forall (λ entry, role entry.1 ≠ admin) history →
       (serve db history).1 = db
       ∧ ∀ incident_type_id,
           get (serve db history).1 incident_type_id = get db incident_type_id)
  ∧ (∀ (db : Session) (current_user : DispatchUser)
       page items_per_page q sort_by descending fields ops values,
       ∃ envelope,
         router current_user
           (GET_root page items_per_page q sort_by descending fields ops values)
           db
         = (db, Returned (PageBody envelope)))
  ∧ (∀ (db : Session) (current_user : DispatchUser) incident_type_id,
       exists_in db incident_type_id →
       ∃ incident_type,
         get db incident_type_id = Some incident_type
         ∧ router current_user (GET_item incident_type_id) db
           = (db, Returned (EntityBody incident_type)))
  ∧ (∀ (db : Session) (current_user : DispatchUser) incident_type_id,
       http_status (router current_user (GET_item incident_type_id) db).2 = 200
       ∨ (¬ exists_in db incident_type_id
          ∧ http_status (router current_user (GET_item incident_type_id) db).2
            = 404))
  ∧ (∀ (db : Session) (current_user : DispatchUser) (req : Request),
       is_read req = true →
       (router current_user req db).1 = db
       ∧ http_status (router current_user req db).2 ≠ 403).
Proof.
  split; [exact reachable_is_by_admins |].
  split; [intros db current_user req; apply router_change_by_admin |].
  split.
  { intros db history Hall.
    rewrite (serve_non_admins_keeps_store _ _ Hall). split; reflexivity. }
  split.
  { intros. eexists. reflexivity. }
  split.
  { intros db current_user i [e Hget]. exists e. split; [assumption |].
    simpl. unfold as_body. rewrite (get_incident_type_present _ _ _ Hget).
    reflexivity. }
  split.
  { intros db current_user i. simpl. unfold as_body.
    destruct (get db i) as [e|] eqn:Hget.
    - left. rewrite (get_incident_type_present _ _ _ Hget). reflexivity.
    - right. rewrite (get_incident_type_absent _ _ Hget). split; [|reflexivity].
      unfold exists_in. rewrite Hget. intros [? ?]; discriminate. }
  intros db current_user req Hread.
  split; [apply router_read_keeps_store, Hread |].
  destruct req as [? ? ? ? ? ? ? ?| | |i]; simpl in Hread;
    try discriminate Hread.
  - simpl. lia.
  - simpl. unfold as_body. destruct (get db i) as [e|] eqn:Hget.
    + rewrite (get_incident_type_present _ _ _ Hget). simpl. lia.
    + rewrite (get_incident_type_absent _ _ Hget). simpl. lia.
Qed.

End Claims.

Section ClaimsOnCreate.
Context `{C : Collaborators}.

(** C4.  For an admin caller and a creation payload (the schema has
    validated it before the handler runs), [create_incident_type] persists
    through the service layer, returns the entity the service created, and
    the status is 200: the store after the request is the store the
    service's create leaves.  For a caller that is not admin, the same
    request fails with 403 and nothing is persisted: the store is unchanged,
    and every lookup gives what it gave. *)
Theorem create_persists_for_admins_only
    (incident_type_in : IncidentTypeCreate) (current_user : DispatchUser)
    (db : Session) :
  let after := create_incident_type incident_type_in current_user db in
  (role current_user = admin →
   after = ((create db incident_type_in).1,
            Returned (create db incident_type_in).2)
   ∧ http_status after.2 = 200)
  ∧ (role current_user ≠ admin →
     after = (db, Raised create_forbidden)
     ∧ http_status after.2 = 403
     ∧ after.1 = db
     ∧ ∀ incident_type_id,
         get after.1 incident_type_id = get db incident_type_id).
Proof.
  intros after. subst after. split; intros Hrole.
  - rewrite create_incident_type_allowed by assumption. split; reflexivity.
  - rewrite create_incident_type_denied by assumption. repeat split.
Qed.

End ClaimsOnCreate.

(** * Properties that rest on what the collaborators do *)

Section ModelFacts.
Import SpecModel.

Lemma foldr_max_upper (l : list Z) (k : Z) : k ∈ l → k ≤ foldr Z.max 0 l.
Proof.
  induction l as [|x l IH]; intros Hin.
  - inversion Hin.
  - apply elem_of_cons in Hin as [-> | Hin]; simpl.
    + lia.
    + specialize (IH Hin). lia.
Qed.

Lemma next_id_above (db : Store) (k : Z) : is_Some (db !! k) → k < next_id db.
Proof.
  intros [a Hk]. unfold next_id.
  assert (k ∈ (map_to_list db).*1) as Hin.
  { apply list_elem_of_fmap. exists (k, a). split; [reflexivity |].
    apply elem_of_map_to_list, Hk. }
  apply foldr_max_upper in Hin. lia.
Qed.

Lemma next_id_fresh (db : Store) : db !! next_id db = None.
Proof.
  apply eq_None_not_Some. intros Hsome.
  apply next_id_above in Hsome. lia.
Qed.

Lemma next_id_positive (db : Store) : 1 ≤ next_id db.
Proof.
  unfold next_id.
  assert (0 ≤ foldr Z.max 0 (map_to_list db).*1); [|lia].
  induction ((map_to_list db).*1) as [|x l IH]; simpl; lia.
Qed.

(** The created entity is new, carries the payload, is found afterwards, and
    no other entity is touched. *)
Lemma service_create_persists (db : Store) (incident_type_in : Payload) :
  let created := service_create db incident_type_in in
  service_get db (id created.2) = None
  ∧ 1 ≤ id created.2
  ∧ attributes created.2 = incident_type_in
  ∧ service_get created.1 (id created.2) = Some created.2
  ∧ ∀ other, other ≠ id created.2 →
             service_get created.1 other = service_get db other.
Proof.
  unfold service_create, service_get. simpl. repeat split.
  - rewrite next_id_fresh. reflexivity.
  - apply next_id_positive.
  - rewrite lookup_insert_eq. reflexivity.
  - intros other Hother. rewrite lookup_insert_ne by congruence. reflexivity.
Qed.

(** The updated entity keeps its identifier, has every field of the payload
    with the payload's value and every other field as before, is what a
    lookup finds afterwards, and no other entity is touched. *)
Lemma service_update_applies
    (db : Store) (incident_type_id : Z) (incident_type : Entity)
    (incident_type_in : Payload) :
  service_get db incident_type_id = Some incident_type →
  let updated := service_update db incident_type incident_type_in in
  id updated.2 = incident_type_id
  ∧ (∀ field value, incident_type_in !! field = Some value →
                    attributes updated.2 !! field = Some value)
  ∧ (∀ field, incident_type_in !! field = None →
              attributes updated.2 !! field = attributes incident_type !! field)
  ∧ service_get updated.1 incident_type_id = Some updated.2
  ∧ ∀ other, other ≠ incident_type_id →
             service_get updated.1 other = service_get db other.
Proof.
  unfold service_get. intros Hget.
  destruct (db !! incident_type_id) as [stored|] eqn:Hrow; [|discriminate].
  simpl in Hget. injection Hget as <-. simpl. repeat split.
  - intros field value Hfield. apply lookup_union_Some_l, Hfield.
  - intros field Hfield. apply lookup_union_r, Hfield.
  - rewrite lookup_insert_eq. reflexivity.
  - intros other Hother. rewrite lookup_insert_ne by congruence. reflexivity.
Qed.

End ModelFacts.

Section ClaimsOnModel.
Import SpecModel.
Context {User Roles : Type} `{EqDecision Roles}.
Variables (admin_role : Roles) (role_of : User → Roles).
Variable selects :
  option string → list (string * string * string) → Entity → bool.
Variable sorted_by : list (string * bool) → list Entity → list Entity.

#[local] Abbreviation model :=
  (collaborators admin_role role_of selects sorted_by).

(** C5.  For an identifier that is in the store and an admin caller,
    [update_incident_type] applies the payload to the existing entity through
    the service layer and succeeds with status 200; the entity returned has
    every field of the payload with the payload's value (and the fields the
    payload does not name as they were), under the identifier asked for, and
    it is what the store then holds. *)
Theorem admin_update_reflects_payload
    (incident_type_id : Z) (incident_type_in : Payload) (current_user : User)
    (db : Store) :
  exists_in (C := model) db incident_type_id →
  role_of current_user = admin_role →
  ∃ (existing updated : Entity) (db' : Store),
    service_get db incident_type_id = Some existing
    ∧ update_incident_type (C := model)
        incident_type_id incident_type_in current_user db
      = (db', Returned updated)
    ∧ (db', updated) = service_update db existing incident_type_in
    ∧ http_status
        (update_incident_type (C := model)
           incident_type_id incident_type_in current_user db).2
      = 200
    ∧ id updated = incident_type_id
    ∧ (∀ field value, incident_type_in !! field = Some value →
                      attributes updated !! field = Some value)
    ∧ (∀ field, incident_type_in !! field = None →
                attributes updated !! field = attributes existing !! field)
    ∧ service_get db' incident_type_id = Some updated
    ∧ ∀ other, other ≠ incident_type_id →
               service_get db' other = service_get db other.
Proof.
  intros [existing Hget] Hrole. simpl in Hget.
  pose proof (service_update_applies db incident_type_id existing
                incident_type_in Hget) as Hupdate.
  pose proof (update_incident_type_allowed (C := model)
                incident_type_id incident_type_in current_user db existing
                Hget Hrole) as Hview.
  simpl in Hview, Hupdate.
  exists existing, (service_update db existing incident_type_in).2,
         (service_update db existing incident_type_in).1.
  rewrite Hview. simpl.
  destruct Hupdate as (Hid & Hin & Hout & Hfound & Hothers).
  repeat split; assumption.
Qed.

(** C7.  [get_incident_types] called with no parameters uses the defaults
    [page = 1] and [itemsPerPage = 5]: it answers with page 1, holding at most
    5 items (the first 5 of the selected entities in order).  It leaves the
    store alone, so calls repeated on unchanged data, by whatever callers,
    all get the same envelope. *)
Theorem default_list_is_first_page (db : Store) :
  let list_request := GET_root (C := model) None None None [] [] [] [] [] in
  ∃ envelope : Pagination,
    get_incident_types (C := model) None None None [] [] [] [] [] db
    = (db, Returned envelope)
    ∧ envelope
      = database_search_filter_sort_paginate selects sorted_by
          db "IncidentType" None 1 5 [] [] [] [] []
    ∧ page envelope = 1
    ∧ itemsPerPage envelope = 5
    ∧ (length (items envelope) ≤ 5)%nat
    ∧ items envelope
      = take 5 (sorted_by [] (List.filter (selects None []) (rows db)))
    ∧ ∀ callers : list User,
        serve (C := model) db ((λ caller, (caller, list_request)) <$> callers)
        = (db, (λ _, Returned (PageBody (C := model) envelope)) <$> callers).
Proof.
  intros list_request. eexists. split; [reflexivity |].
  split; [reflexivity |]. split; [reflexivity |]. split; [reflexivity |].
  split; [|split].
  - simpl. rewrite length_take. lia.
  - reflexivity.
  - intros callers. induction callers as [|caller callers IH].
    + reflexivity.
    + rewrite fmap_cons, serve_cons.
      change (router (C := model) caller list_request db).1 with db.
      rewrite IH. reflexivity.
Qed.

End ClaimsOnModel.

(** * Further properties of the handlers *)

(** What the four handlers do beyond the claims above: which outcomes each
    can have, what decides between them, what a failed request leaves behind,
    what of the principal is looked at, and how requests compose. *)
Section Outcomes.
Context `{C : Collaborators}.


(** X2.  What decides the status of [update_incident_type]: it is 404
    exactly when the identifier is not in the store, 403 exactly when it is
    and the caller is not admin, 200 exactly when it is and the caller is
    admin.  The payload plays no part. *)
Theorem update_status_decided_by_lookup_then_role
    (incident_type_id : Z) (incident_type_in : IncidentTypeUpdate)
    (current_user : DispatchUser) (db : Session) :
  let status :=
    http_status
      (update_incident_type incident_type_id incident_type_in
         current_user db).2 in
  (status = 404 ↔ ¬ exists_in db incident_type_id)
  ∧ (status = 403 ↔
     exists_in db incident_type_id ∧ role current_user ≠ admin)
  ∧ (status = 200 ↔
     exists_in db incident_type_id ∧ role current_user = admin).
Proof.
  intros status. subst status. unfold exists_in.
  destruct (get db incident_type_id) as [e|] eqn:Hfound.
  - destruct (decide (role current_user = admin)) as [Hadmin | Hne].
    + rewrite (update_incident_type_allowed _ _ _ _ _ Hfound Hadmin). simpl.
      repeat split; try discriminate; eauto.
      * intros Habsent. exfalso. apply Habsent. eauto.
      * intros [_ Hne]. contradiction.
    + rewrite (update_incident_type_denied _ _ _ _ _ Hfound Hne). simpl.
      repeat split; try discriminate; eauto.
      * intros Habsent. exfalso. apply Habsent. eauto.
      * intros [_ Hadmin]. contradiction.
  - rewrite (update_incident_type_absent _ _ _ _ Hfound). simpl.
    repeat split; try discriminate;
      try (intros [[? ?] _]; discriminate).
    intros _ [? Hsome]. discriminate Hsome.
Qed.

(** X3.  What decides the status of [create_incident_type]: the role alone.
    It is 200 exactly when the caller is admin and 403 exactly when not,
    whatever the store holds and whatever the payload; there is no lookup, so
    it is never 404. *)
Theorem create_status_decided_by_role
    (incident_type_in : IncidentTypeCreate) (current_user : DispatchUser)
    (db : Session) :
  let status :=
    http_status (create_incident_type incident_type_in current_user db).2 in
  (status = 200 ↔ role current_user = admin)
  ∧ (status = 403 ↔ role current_user ≠ admin)
  ∧ status ≠ 404.
Proof.
  intros status. subst status.
  destruct (decide (role current_user = admin)) as [Hadmin | Hne].
  - rewrite create_incident_type_allowed by assumption. simpl.
    repeat split; try discriminate; try contradiction; auto.
  - rewrite create_incident_type_denied by assumption. simpl.
    repeat split; try discriminate; try contradiction; auto.
Qed.

(** X4.  To a caller that is not admin, the answer of
    [update_incident_type] tells whether the identifier is in the store and
    nothing else: on two stores, with any two payloads, the outcomes are the
    same exactly when the identifier is in both stores or in neither. *)
Theorem denied_update_reveals_existence_only
    (incident_type_id : Z) (payload1 payload2 : IncidentTypeUpdate)
    (current_user : DispatchUser) (db1 db2 : Session) :
  role current_user ≠ admin →
  (update_incident_type incident_type_id payload1 current_user db1).2
  = (update_incident_type incident_type_id payload2 current_user db2).2
  ↔ (exists_in db1 incident_type_id ↔ exists_in db2 incident_type_id).
Proof.
  intros Hrole. unfold exists_in.
  destruct (get db1 incident_type_id) as [e1|] eqn:H1;
    destruct (get db2 incident_type_id) as [e2|] eqn:H2;
    repeat match goal with
    | H : get _ _ = Some _ |- _ =>
        rewrite (update_incident_type_denied _ _ _ _ _ H Hrole); clear H
    | H : get _ _ = None |- _ =>
        rewrite (update_incident_type_absent _ _ _ _ H); clear H
    end; simpl.
  - split; [intros _; split; eauto | reflexivity].
  - split; [discriminate |]. intros [Hlr _].
    destruct Hlr as [? ?]; [eauto | discriminate].
  - split; [discriminate |]. intros [_ Hrl].
    destruct Hrl as [? ?]; [eauto | discriminate].
  - split; [intros _; split; intros [? ?]; discriminate | reflexivity].
Qed.

(** X5.  A request that does not end with status 200 leaves the store as it
    was: both checks of a writing handler come before its call to the
    service. *)
Theorem failed_request_keeps_store
    (current_user : DispatchUser) (req : Request) (db : Session) :
  http_status (router current_user req db).2 ≠ 200 →
  (router current_user req db).1 = db.
Proof.
  intros Hfailed.
  destruct (decide (role current_user = admin)) as [Hadmin | Hne];
    [| apply router_non_admin_keeps_store, Hne].
  destruct (is_read req) eqn:Hread;
    [apply router_read_keeps_store, Hread |].
  destruct req as [? ? ? ? ? ? ? ?|inp|i inp|i]; simpl in *;
    try discriminate Hread; unfold as_body in *.
  - rewrite create_incident_type_allowed in Hfailed by assumption.
    simpl in Hfailed. contradiction.
  - destruct (get db i) as [e|] eqn:Hfound.
    + rewrite (update_incident_type_allowed _ _ _ _ _ Hfound Hadmin) in Hfailed.
      simpl in Hfailed. contradiction.
    + rewrite (update_incident_type_absent _ _ _ _ Hfound). reflexivity.
Qed.

(** X6.  Of the principal, the handlers look at one thing: whether the role
    is admin.  Two principals that are both admin, or both not, get the same
    result for every request on every store. *)
Theorem caller_matters_only_as_admin_or_not
    (caller1 caller2 : DispatchUser) (req : Request) (db : Session) :
  (role caller1 = admin ↔ role caller2 = admin) →
  router caller1 req db = router caller2 req db.
Proof.
  intros Hsame.
  destruct req as [? ? ? ? ? ? ? ?|inp|i inp|i]; simpl; try reflexivity;
    unfold as_body.
  - destruct (decide (role caller1 = admin)) as [H1 | H1].
    + rewrite !create_incident_type_allowed by tauto. reflexivity.
    + rewrite !create_incident_type_denied by tauto. reflexivity.
  - destruct (get db i) as [e|] eqn:Hfound.
    + destruct (decide (role caller1 = admin)) as [H1 | H1].
      * rewrite (update_incident_type_allowed _ _ caller1 _ _ Hfound H1).
        rewrite (update_incident_type_allowed _ _ caller2 _ _ Hfound
                   (proj1 Hsame H1)).
        reflexivity.
      * assert (role caller2 ≠ admin) as H2 by tauto.
        rewrite (update_incident_type_denied _ _ caller1 _ _ Hfound H1).
        rewrite (update_incident_type_denied _ _ caller2 _ _ Hfound H2).
        reflexivity.
    + rewrite !(update_incident_type_absent _ _ _ _ Hfound). reflexivity.
Qed.

(** X7.  The store after a history of requests is the store after the
    writing requests of its admins alone, in the same order: reads and the
    requests of every other principal can be left out. *)
Theorem store_depends_on_admin_writes_only
    (history : list (DispatchUser * Request)) (db : Session) :
  (serve db history).1 = (serve db (List.filter is_admin_write history)).1.
Proof.
  revert db. induction history as [|[current_user req] rest IH]; intros db.
  - reflexivity.
  - rewrite serve_cons. simpl List.filter.
    destruct (is_admin_write (current_user, req)) eqn:Hwrite.
    + rewrite serve_cons. simpl. apply IH.
    + assert ((router current_user req db).1 = db) as Hkeep.
      { unfold is_admin_write in Hwrite. simpl in Hwrite.
        apply andb_false_iff in Hwrite as [Hrole | Hread].
        - apply bool_decide_eq_false in Hrole.
          apply router_non_admin_keeps_store, Hrole.
        - apply negb_false_iff in Hread.
          apply router_read_keeps_store, Hread. }
      simpl. rewrite Hkeep. apply IH.
Qed.

(** X8.  Reading back an update.  When the service's lookup finds what its
    update wrote, an admin's [PUT] of an identifier in the store followed by
    anyone's [GET] of it gives the same entity twice: the one the service's
    update returned. *)
Theorem get_after_update_returns_updated
    (incident_type_id : Z) (incident_type_in : IncidentTypeUpdate)
    (writer reader : DispatchUser) (db : Session) (incident_type : IncidentType) :
  get db incident_type_id = Some incident_type →
  role writer = admin →
  get (update db incident_type incident_type_in).1 incident_type_id
  = Some (update db incident_type incident_type_in).2 →
  serve db [(writer, PUT_item incident_type_id incident_type_in);
            (reader, GET_item incident_type_id)]
  = ((update db incident_type incident_type_in).1,
     [Returned (EntityBody (update db incident_type incident_type_in).2);
      Returned (EntityBody (update db incident_type incident_type_in).2)]).
Proof.
  intros Hfound Hadmin Hlaw.
  rewrite !serve_cons. simpl. unfold as_body.
  rewrite (update_incident_type_allowed _ _ _ _ _ Hfound Hadmin). simpl.
  rewrite (get_incident_type_present _ _ _ Hlaw). reflexivity.
Qed.

(** X9.  Reading back a creation.  When the service's lookup finds the
    created entity under an identifier, an admin's [POST] followed by
    anyone's [GET] of that identifier gives the same entity twice; after the
    same [POST] by a principal that is not admin, the [GET] answers as it
    would have before. *)
Theorem get_after_create_returns_created
    (incident_type_in : IncidentTypeCreate) (new_id : Z)
    (writer reader : DispatchUser) (db : Session) :
  get (create db incident_type_in).1 new_id
  = Some (create db incident_type_in).2 →
  (role writer = admin →
   serve db [(writer, POST_root incident_type_in); (reader, GET_item new_id)]
   = ((create db incident_type_in).1,
      [Returned (EntityBody (create db incident_type_in).2);
       Returned (EntityBody (create db incident_type_in).2)]))
  ∧ (role writer ≠ admin →
     serve db [(writer, POST_root incident_type_in); (reader, GET_item new_id)]
     = (db, [Raised create_forbidden;
             (router reader (GET_item new_id) db).2])).
Proof.
  intros Hlaw. split; intros Hrole; rewrite !serve_cons; simpl; unfold as_body.
  - rewrite create_incident_type_allowed by assumption. simpl.
    rewrite (get_incident_type_present _ _ _ Hlaw). reflexivity.
  - rewrite create_incident_type_denied by assumption. simpl.
    destruct (get db new_id) as [e|] eqn:Hfound.
    + rewrite (get_incident_type_present _ _ _ Hfound). reflexivity.
    + rewrite (get_incident_type_absent _ _ Hfound). reflexivity.
Qed.

End Outcomes.

(** * The claims at concrete requests *)

(** The store [one_entity] holds entity 1; [alice] is an admin and [bob] is
    not. *)
Section Examples.
Import SpecModel.
Existing Instance example.

Lemma one_entity_has_1 : get one_entity 1 = Some (mkEntity 1 fire).
Proof. vm_compute. reflexivity. Defined.

Lemma one_entity_lacks_7 : ¬ exists_in one_entity 7.
Proof. intros [entity Hget]. vm_compute in Hget. discriminate Hget. Defined.

Lemma alice_is_admin : role alice = admin.
Proof. reflexivity. Defined.

Lemma bob_is_not_admin : role bob ≠ admin.
Proof. simpl. discriminate. Defined.

Example alice_creates_flood :
  create_incident_type flood alice one_entity
  = (<[2 := flood]> one_entity, Returned (mkEntity 2 flood)).
Proof. vm_compute. reflexivity. Qed.

Example alice_updates_1 :
  update_incident_type 1 flood alice one_entity
  = ({[ 1 := flood ]}, Returned (mkEntity 1 flood)).
Proof. vm_compute. reflexivity. Qed.

Example bob_updates_1 :
  update_incident_type 1 flood bob one_entity
  = (one_entity, Raised update_forbidden).
Proof. vm_compute. reflexivity. Qed.

Example bob_updates_7 :
  update_incident_type 7 flood bob one_entity = (one_entity, Raised not_found).
Proof. vm_compute. reflexivity. Qed.

Example list_of_one_entity :
  get_incident_types None None None [] [] [] [] [] one_entity
  = (one_entity, Returned (mkPagination [mkEntity 1 fire] 5 1 1)).
Proof. vm_compute. reflexivity. Qed.

Example second_page_of_two :
  id <$> items (search_filter_sort_paginate
                  (<[3 := flood]> (<[2 := flood]> one_entity))
                  "IncidentType" None 2 2 [] [] [] [] [])
  = [1].
Proof. vm_compute. reflexivity. Qed.

Lemma update_lookup_precedes_permission_witness :
  ¬ exists_in one_entity 7
  ∧ role bob ≠ admin
  ∧ update_incident_type 7 flood bob one_entity = (one_entity, Raised not_found)
  ∧ http_status (update_incident_type 7 flood bob one_entity).2 = 404
  ∧ http_status (update_incident_type 7 flood bob one_entity).2 ≠ 403.
Proof.
  split; [exact one_entity_lacks_7 |].
  split; [exact bob_is_not_admin |].
  exact (update_lookup_precedes_permission 7 flood bob one_entity
           one_entity_lacks_7).
Defined.

Lemma non_admin_writes_are_403_witness :
  role bob ≠ admin
  ∧ exists_in one_entity 1
  ∧ http_status (create_incident_type flood bob one_entity).2 = 403
  ∧ http_status (update_incident_type 1 flood bob one_entity).2 = 403.
Proof.
  split; [exact bob_is_not_admin |].
  split; [exists (mkEntity 1 fire); exact one_entity_has_1 |].
  split.
  - exact (proj2 (proj1 (non_admin_writes_are_403 bob bob_is_not_admin)
                    flood one_entity)).
  - exact (proj2 (proj2 (non_admin_writes_are_403 bob bob_is_not_admin)
                    1 flood one_entity
                    (ex_intro _ (mkEntity 1 fire) one_entity_has_1))).
Defined.

Lemma unknown_id_is_404_witness :
  ¬ exists_in one_entity 7
  ∧ http_status (get_incident_type 7 one_entity).2 = 404
  ∧ http_status (update_incident_type 7 flood alice one_entity).2 = 404.
Proof.
  split; [exact one_entity_lacks_7 |].
  split.
  - exact (proj2 (proj1 (unknown_id_is_404 7 one_entity one_entity_lacks_7))).
  - exact (proj2 (proj2 (unknown_id_is_404 7 one_entity one_entity_lacks_7)
                    flood alice)).
Defined.

Lemma create_persists_for_admins_only_witness :
  role alice = admin
  ∧ role bob ≠ admin
  ∧ create_incident_type flood alice one_entity
    = ((create one_entity flood).1, Returned (create one_entity flood).2)
  ∧ create_incident_type flood bob one_entity
    = (one_entity, Raised create_forbidden).
Proof.
  split; [exact alice_is_admin |].
  split; [exact bob_is_not_admin |].
  split.
  - exact (proj1 (proj1 (create_persists_for_admins_only flood alice one_entity)
                    alice_is_admin)).
  - exact (proj1 (proj2 (create_persists_for_admins_only flood bob one_entity)
                    bob_is_not_admin)).
Defined.

Lemma admin_update_reflects_payload_witness :
  exists_in one_entity 1
  ∧ principal_role alice = "admin"
  ∧ ∃ (existing updated : Entity) (db' : Store),
      service_get one_entity 1 = Some existing
      ∧ update_incident_type 1 flood alice one_entity = (db', Returned updated)
      ∧ (db', updated) = service_update one_entity existing flood
      ∧ http_status (update_incident_type 1 flood alice one_entity).2 = 200
      ∧ id updated = 1
      ∧ (∀ field value, flood !! field = Some value →
                        attributes updated !! field = Some value)
      ∧ (∀ field, flood !! field = None →
                  attributes updated !! field = attributes existing !! field)
      ∧ service_get db' 1 = Some updated
      ∧ ∀ other, other ≠ 1 → service_get db' other = service_get one_entity other.
Proof.
  split; [exists (mkEntity 1 fire); exact one_entity_has_1 |].
  split; [reflexivity |].
  exact (admin_update_reflects_payload "admin" principal_role
           (λ _ _ _, true) (λ _ l, l) 1 flood alice one_entity
           (ex_intro _ (mkEntity 1 fire) one_entity_has_1) eq_refl).
Defined.

Lemma get_returns_stored_entity_witness :
  get one_entity 1 = Some (mkEntity 1 fire)
  ∧ get_incident_type 1 one_entity = (one_entity, Returned (mkEntity 1 fire))
  ∧ router bob (GET_item 1) one_entity
    = (one_entity, Returned (EntityBody (mkEntity 1 fire))).
Proof.
  split; [exact one_entity_has_1 |].
  split.
  - exact (proj1 (proj1 (get_returns_stored_entity 1 one_entity
                           (mkEntity 1 fire) one_entity_has_1))).
  - exact (proj1 (proj2 (get_returns_stored_entity 1 one_entity
                           (mkEntity 1 fire) one_entity_has_1) bob)).
Defined.

Lemma denied_update_leaves_store_witness :
  get one_entity 1 = Some (mkEntity 1 fire)
  ∧ role bob ≠ admin
  ∧ http_status (update_incident_type 1 flood bob one_entity).2 = 403
  ∧ (update_incident_type 1 flood bob one_entity).1 = one_entity.
Proof.
  split; [exact one_entity_has_1 |].
  split; [exact bob_is_not_admin |].
  pose proof (denied_update_leaves_store 1 flood bob one_entity
                (mkEntity 1 fire) one_entity_has_1 bob_is_not_admin) as Hthm.
  exact (conj (proj1 Hthm) (proj1 (proj2 Hthm))).
Defined.

Lemma only_admins_change_the_store_witness :
  Forall (λ entry : DispatchUser * Request, role entry.1 ≠ admin)
    [(bob, POST_root flood); (bob, PUT_item 1 flood); (bob, GET_item 1)]
  ∧ (serve one_entity
       [(bob, POST_root flood); (bob, PUT_item 1 flood); (bob, GET_item 1)]).1
    = one_entity
  ∧ (exists_in one_entity 1 →
     ∃ incident_type,
       get one_entity 1 = Some incident_type
       ∧ router bob (GET_item 1) one_entity
         = (one_entity, Returned (EntityBody incident_type))).
Proof.
  assert (Forall (λ entry : DispatchUser * Request, role entry.1 ≠ admin)
            [(bob, POST_root flood); (bob, PUT_item 1 flood); (bob, GET_item 1)])
    as Hall.
  { repeat constructor; exact bob_is_not_admin. }
  split; [exact Hall |].
  destruct only_admins_change_the_store
    as (_ & _ & Hserve & _ & Hget & _ & _).
  split.
  - exact (proj1 (Hserve one_entity _ Hall)).
  - exact (Hget one_entity bob 1).
Defined.

End Examples.

(** * The further properties at concrete requests *)

(** [carol] is, like [bob], not an admin, with another role. *)
Section MoreExamples.
Import SpecModel.
Existing Instance example.

Lemma carol_is_not_admin : role carol ≠ admin.
Proof. simpl. discriminate. Defined.

Lemma lookup_finds_updated_1 :
  get (update one_entity (mkEntity 1 fire) flood).1 1
  = Some (update one_entity (mkEntity 1 fire) flood).2.
Proof. vm_compute. reflexivity. Defined.

Lemma lookup_finds_created_2 :
  get (create one_entity flood).1 2 = Some (create one_entity flood).2.
Proof. vm_compute. reflexivity. Defined.

Example alice_updates_then_bob_reads :
  serve one_entity [(alice, PUT_item 1 flood); (bob, GET_item 1)]
  = ({[ 1 := flood ]},
     [Returned (EntityBody (mkEntity 1 flood));
      Returned (EntityBody (mkEntity 1 flood))]).
Proof. reflexivity. Qed.

Example mixed_history_store :
  (serve one_entity
     [(bob, POST_root fire); (alice, POST_root flood); (carol, PUT_item 2 fire);
      (bob, GET_item 2); (alice, PUT_item 1 flood)]).1
  = <[2 := flood]> {[ 1 := flood ]}.
Proof. reflexivity. Qed.

Lemma denied_update_reveals_existence_only_witness :
  role bob ≠ admin
  ∧ (update_incident_type 1 flood bob one_entity).2
    = (update_incident_type 1 fire bob ({[ 1 := flood ]} : Store)).2.
Proof.
  split; [exact bob_is_not_admin |].
  apply (proj2 (denied_update_reveals_existence_only (C := example)
                  1 flood fire bob
                  one_entity ({[ 1 := flood ]} : Store) bob_is_not_admin)).
  split; intros _.
  - exists (mkEntity 1 flood). vm_compute. reflexivity.
  - exists (mkEntity 1 fire). exact one_entity_has_1.
Defined.

Lemma failed_request_keeps_store_witness :
  http_status (router bob (POST_root flood) one_entity).2 ≠ 200
  ∧ (router bob (POST_root flood) one_entity).1 = one_entity.
Proof.
  assert (http_status (router bob (POST_root flood) one_entity).2 ≠ 200)
    as Hfailed.
  { vm_compute. intros Heq. discriminate Heq. }
  split; [exact Hfailed |].
  exact (failed_request_keeps_store bob (POST_root flood) one_entity Hfailed).
Defined.

Lemma caller_matters_only_as_admin_or_not_witness :
  (role bob = admin ↔ role carol = admin)
  ∧ router bob (PUT_item 1 flood) one_entity
    = router carol (PUT_item 1 flood) one_entity.
Proof.
  assert (role bob = admin ↔ role carol = admin) as Hsame.
  { split; intros Heq.
    - exfalso. exact (bob_is_not_admin Heq).
    - exfalso. exact (carol_is_not_admin Heq). }
  split; [exact Hsame |].
  exact (caller_matters_only_as_admin_or_not bob carol (PUT_item 1 flood)
           one_entity Hsame).
Defined.

Lemma get_after_update_returns_updated_witness :
  get one_entity 1 = Some (mkEntity 1 fire)
  ∧ role alice = admin
  ∧ get (update one_entity (mkEntity 1 fire) flood).1 1
    = Some (update one_entity (mkEntity 1 fire) flood).2
  ∧ serve one_entity [(alice, PUT_item 1 flood); (bob, GET_item 1)]
    = ((update one_entity (mkEntity 1 fire) flood).1,
       [Returned (EntityBody (update one_entity (mkEntity 1 fire) flood).2);
        Returned (EntityBody (update one_entity (mkEntity 1 fire) flood).2)]).
Proof.
  split; [exact one_entity_has_1 |].
  split; [exact alice_is_admin |].
  split; [exact lookup_finds_updated_1 |].
  exact (get_after_update_returns_updated 1 flood alice bob one_entity
           (mkEntity 1 fire) one_entity_has_1 alice_is_admin
           lookup_finds_updated_1).
Defined.

Lemma get_after_create_returns_created_witness :
  get (create one_entity flood).1 2 = Some (create one_entity flood).2
  ∧ role alice = admin
  ∧ role bob ≠ admin
  ∧ serve one_entity [(alice, POST_root flood); (carol, GET_item 2)]
    = ((create one_entity flood).1,
       [Returned (EntityBody (create one_entity flood).2);
        Returned (EntityBody (create one_entity flood).2)])
  ∧ serve one_entity [(bob, POST_root flood); (carol, GET_item 2)]
    = (one_entity,
       [Raised create_forbidden; (router carol (GET_item 2) one_entity).2]).
Proof.
  split; [exact lookup_finds_created_2 |].
  split; [exact alice_is_admin |].
  split; [exact bob_is_not_admin |].
  split.
  - exact (proj1 (get_after_create_returns_created flood 2 alice carol
                    one_entity lookup_finds_created_2) alice_is_admin).
  - exact (proj2 (get_after_create_returns_created flood 2 bob carol
                    one_entity lookup_finds_created_2) bob_is_not_admin).
Defined.

End MoreExamples.
